(** * The chat proxy endpoint of porto-astro: [src/src/pages/api/chat.ts]

    A shallow embedding of the Astro API route [POST] that forwards a chat
    message to the Groq chat-completion API and answers with a JSON reply.

    Modelling choices:
    - JavaScript values reachable by the handler (the parsed request body,
      the parsed upstream body, [undefined]) are the inductive [val].
      Numbers are rationals (JSON numbers are decimal; [JSON.parse] never
      yields NaN).  Strings are UTF-8 byte strings.  Objects are association
      lists in source order; [JSON.parse] keeps the last of duplicate keys,
      which is what [obj_lookup] does.
    - The code raises (rejects) at a few places; the body of the [try] block
      is written in a small exception monad [exc], and [POST] is the
      [try ... catch] around it.
    - [request.json()] is the request's [req_json] field: [None] when the
      body is not valid JSON (the promise rejects).
    - [fetch] is a parameter of [POST]: a function from the outbound call
      to its outcome (network failure, or a response with its [ok] flag and
      the outcome of [response.json()]).
    - [import.meta.env.GROQ_API_KEY] is an [option string] (Vite exposes
      environment values as strings, [undefined] when unset).
    - The outbound body is the object handed to [JSON.stringify]. *)

From Stdlib Require Import String List QArith Bool DecimalString.
Import ListNotations.
Open Scope string_scope.

(** ** JavaScript values *)

#[local] Set Warnings "-register-all".

Inductive val : Type :=
| VUndef
| VNull
| VBool (b : bool)
| VNum (q : Q)
| VStr (s : string)
| VArr (xs : list val)
| VObj (kvs : list (string * val)).

(** Own-property lookup in an object, the last binding of a key winning. *)
Definition obj_lookup (kvs : list (string * val)) (k : string) : option val :=
  fold_left (fun acc kv => if String.eqb (fst kv) k then Some (snd kv) else acc)
            kvs None.

(** JavaScript truthiness. *)
Definition truthy (v : val) : bool :=
  match v with
  | VUndef | VNull => false
  | VBool b => b
  | VNum q => negb (Qeq_bool q 0)
  | VStr s => negb (String.eqb s "")
  | VArr _ | VObj _ => true
  end.

(** [a || b] *)
Definition js_or (a b : val) : val := if truthy a then a else b.

Definition is_nullish (v : val) : bool :=
  match v with VUndef | VNull => true | _ => false end.

(** ** The exception monad of the [try] block *)

Inductive exc (A : Type) : Type :=
| Throw (err : string)
| Ret (a : A).
Arguments Throw {A} err.
Arguments Ret {A} a.

Definition bind {A B} (m : exc A) (f : A -> exc B) : exc B :=
  match m with Throw e => Throw e | Ret a => f a end.

Notation "x <- m ;; k" := (bind m (fun x => k))
  (at level 61, m at next level, right associativity).

(** ** Property access *)

(** A property key: a name ([o.name]) or an array index ([o[n]]). *)
Inductive key : Type :=
| KName (s : string)
| KIdx (n : nat).

Definition key_string (k : key) : string :=
  match k with
  | KName s => s
  | KIdx n => NilZero.string_of_uint (Nat.to_uint n)
  end.

(** [v.k] / [v[k]]: a [TypeError] on [undefined] and [null].  Arrays and
    strings are indexed; a named property of an array, string, number or
    boolean is [undefined] for the names this handler reads ([choices],
    [message], [content] are no built-in property of these). *)
Definition prop (v : val) (k : key) : exc val :=
  match v with
  | VUndef | VNull => Throw "TypeError: cannot read properties of null or undefined"
  | VObj kvs =>
      Ret (match obj_lookup kvs (key_string k) with Some x => x | None => VUndef end)
  | VArr xs =>
      Ret (match k with
           | KIdx n => nth n xs VUndef
           | KName _ => VUndef
           end)
  | VStr s =>
      Ret (match k with
           | KIdx n => match String.get n s with
                       | Some c => VStr (String c EmptyString)
                       | None => VUndef
                       end
           | KName _ => VUndef
           end)
  | VBool _ | VNum _ => Ret VUndef
  end.

(** [v?.k]: [undefined] on a nullish [v]. *)
Definition opt_prop (v : val) (k : key) : exc val :=
  if is_nullish v then Ret VUndef else prop v k.

(** ** Requests, the outbound call and responses *)

Record request : Type := mkRequest {
  req_json : option val   (* outcome of [request.json()] *)
}.

Record call : Type := mkCall {
  call_url : string;
  call_method : string;
  call_authorization : string;
  call_content_type : string;
  call_body : val          (* the object passed to [JSON.stringify] *)
}.

Inductive fetch_result : Type :=
| FNetErr                                   (* [fetch] rejects *)
| FResp (ok : bool) (json : option val).    (* [response.ok], [response.json()] *)

Record response : Type := mkResponse {
  status : Z;
  content_type : string;
  body : val               (* the object passed to [JSON.stringify] *)
}.

Definition reply (m : val) : response :=
  {| status := 200; content_type := "application/json";
     body := VObj [("message", m)] |}.

(** ** Constants of the handler *)

Definition groq_url : string := "https://api.groq.com/openai/v1/chat/completions".
Definition demo_key : string := "gsk_demo_key".
Definition model_id : string := "llama-3.3-70b-versatile".
Definition default_system : string := "You are a helpful assistant.".
Definition temperature : Q := 7 # 10.
Definition max_tokens : Q := 500.

Definition fallback_capabilities : string :=
  "I'm Adam's AI assistant! I can help you learn about:

• My experience as an IT Trainer at Enigma Camp
• My technical skills (Java Spring Boot, React, Angular)
• My projects and portfolio
• My education and certifications

What would you like to know?".

Definition fallback_invitation : string :=
  "I'm here to help you learn about Adam Maulana! Ask me about his experience, skills, projects, or how to contact him. 😊".

Definition apology : string := "I apologize, I could not process that request.".

(** ** The handler *)

(** [await request.json()] *)
Definition request_json (req : request) : exc val :=
  match req_json req with
  | Some v => Ret v
  | None => Throw "SyntaxError: invalid JSON request body"
  end.

(** [const { message, context } = v] *)
Definition destructure (v : val) : exc (val * val) :=
  if is_nullish v then Throw "TypeError: cannot destructure"
  else m <- prop v (KName "message") ;; c <- prop v (KName "context") ;; Ret (m, c).

(** [import.meta.env.GROQ_API_KEY || 'gsk_demo_key'] *)
Definition groq_api_key (env : option string) : string :=
  match env with
  | Some k => if String.eqb k "" then demo_key else k
  | None => demo_key
  end.

(** The argument of [fetch] (lines 13-34). *)
Definition build_call (key : string) (message context : val) : call :=
  {| call_url := groq_url;
     call_method := "POST";
     call_authorization := "Bearer " ++ key;
     call_content_type := "application/json";
     call_body := VObj [("model", VStr model_id);
                        ("messages",
                          VArr [VObj [("role", VStr "system");
                                      ("content", js_or context (VStr default_system))];
                                VObj [("role", VStr "user");
                                      ("content", message)]]);
                        ("temperature", VNum temperature);
                        ("max_tokens", VNum max_tokens)] |}.

(** Lines 7-34 up to the [fetch]: the call the handler makes. *)
Definition prepare (env : option string) (req : request) : exc call :=
  v <- request_json req ;;
  mc <- destructure v ;;
  Ret (build_call (groq_api_key env) (fst mc) (snd mc)).

(** The call the handler sends upstream, if it gets that far. *)
Definition outbound (env : option string) (req : request) : option call :=
  match prepare env req with Ret c => Some c | Throw _ => None end.

(** [await fetch(...)] *)
Definition do_fetch (fetch : call -> fetch_result) (c : call) : exc (bool * option val) :=
  match fetch c with
  | FNetErr => Throw "TypeError: fetch failed"
  | FResp ok j => Ret (ok, j)
  end.

(** [await response.json()] *)
Definition response_json (j : option val) : exc val :=
  match j with
  | Some v => Ret v
  | None => Throw "SyntaxError: invalid JSON response body"
  end.

(** [data.choices[0]?.message?.content || 'I apologize, ...'] *)
Definition extract_bot_message (data : val) : exc val :=
  choices <- prop data (KName "choices") ;;
  first <- prop choices (KIdx 0) ;;
  msg <- opt_prop first (KName "message") ;;
  content <- opt_prop msg (KName "content") ;;
  Ret (js_or content (VStr apology)).

(** The body of the [try] block. *)
Definition POST_try (env : option string) (fetch : call -> fetch_result)
    (req : request) : exc response :=
  c <- prepare env req ;;
  r <- do_fetch fetch c ;;
  if negb (fst r) then Ret (reply (VStr fallback_capabilities))
  else
    data <- response_json (snd r) ;;
    botMessage <- extract_bot_message data ;;
    Ret (reply botMessage).

(** [POST]: the [try ... catch] around [POST_try]. *)
Definition POST (env : option string) (fetch : call -> fetch_result)
    (req : request) : response :=
  match POST_try env fetch req with
  | Ret r => r
  | Throw _ => reply (VStr fallback_invitation)
  end.

(** ** The chatbot context template ([profileContext], [src/unnamed/part_003])

    The template literal is the concatenation of its static text and its
    interpolations; it is written as a function of the imported [profile],
    [skills] and [projects]. *)

Record profile_t : Type := mkProfile {
  p_name : string; p_title : string; p_email : string;
  p_github : string; p_linkedin : string; p_bio : string }.

Record skill : Type := mkSkill { category : string; items : list string }.

(** The fields of [Project] the template reads ([github?] and [demo?] are
    optional). *)
Record project : Type := mkProject {
  title : string; description : string; technologies : list string;
  github : option string; demo : option string }.

Definition nl : string := String (Ascii.ascii_of_nat 10) EmptyString.

(** [Array.prototype.join] on an array of strings. *)
Fixpoint join (sep : string) (xs : list string) : string :=
  match xs with
  | [] => ""
  | [x] => x
  | x :: rest => x ++ sep ++ join sep rest
  end.

(** [s || 'N/A'] for an optional string. *)
Definition or_na (o : option string) : string :=
  match o with
  | Some s => if String.eqb s "" then "N/A" else s
  | None => "N/A"
  end.

(** The callback of [skills.map]. *)
Definition skill_block (c : skill) : string :=
  nl ++ category c ++ ":" ++ nl
  ++ join nl (map (fun s => "- " ++ s) (items c)) ++ nl.

(** The callback of [projects.map]. *)
Definition project_block (p : project) : string :=
  nl ++ title p ++ ":" ++ nl
  ++ "- Description: " ++ description p ++ nl
  ++ "- Technologies: " ++ join ", " (technologies p) ++ nl
  ++ "- GitHub: " ++ or_na (github p) ++ nl
  ++ "- Demo: " ++ or_na (demo p) ++ nl.

Definition context_head (profile : profile_t) : string :=
  "
You are a helpful AI assistant representing Adam Maulana's portfolio website. Answer questions about Adam based on the following information:

## Profile
Name: "
  ++ p_name profile
  ++ "
Title: "
  ++ p_title profile
  ++ "
Email: "
  ++ p_email profile
  ++ "
GitHub: "
  ++ p_github profile
  ++ "
LinkedIn: "
  ++ p_linkedin profile
  ++ "

Bio: "
  ++ p_bio profile
  ++ "

## Professional Background
- Currently working as Junior Trainer at Enigma Camp (November 2023 - Present) in Malang, East Java, Indonesia
  * Mentoring fresh graduates and junior developers
  * Designing modern curriculum for programming and web development
  * Successfully training developers from IT and non-IT backgrounds

- Freelance Web Developer (March 2021 - Present)
  * Full-stack web development services
  * Specializing in React, Express.js, MySQL
  * Project management and client communication

- Frontend Developer at ZettaByte Pte Ltd - ZettaCamp (August 2023 - November 2023)
  * JavaScript and Angular development
  * International project exposure
  * Team-driven development with cutting-edge technologies

## Education
- Bachelor's degree in Business Administration and Management from Universitas Terbuka
- Studied Electrical and Electronics Engineering at Universitas Gadjah Mada (UGM)

## Technical Skills
".

Definition context_mid : string := "

## Featured Projects
".

Definition context_tail (profile : profile_t) : string :=
  "

## Certifications
- Belajar Membuat Front-End Web untuk Pemula
- Technical Support Fundamentals
- Belajar Dasar Manajemen Proyek
- Belajar Dasar Pemrograman Web
- Belajar Jaringan Komputer untuk Pemula

## Languages
- English (Professional Working)
- Indonesian (Native or Bilingual)

## Location
Malang, East Java, Indonesia

Instructions:
- Answer questions professionally and concisely
- If asked about contact, provide email: "
  ++ p_email profile
  ++ "
- If asked about social media, provide LinkedIn: "
  ++ p_linkedin profile
  ++ " and GitHub: "
  ++ p_github profile
  ++ "
- If you don't know something about Adam that's not in this context, politely say you don't have that information
- Be friendly and helpful
- Keep responses concise and relevant
".

Definition profileContext (profile : profile_t) (skills : list skill)
    (projects : list project) : string :=
  context_head profile
  ++ join nl (map skill_block skills)
  ++ context_mid
  ++ join nl (map project_block projects)
  ++ context_tail profile.

(** ** Vocabulary of the specification *)

(** The outbound body the specification describes: a fixed model, the two
    ordered instructions (system, then user), a fixed temperature and a
    fixed output bound. *)
Definition expected_body (system user : val) : val :=
  VObj [("model", VStr model_id);
        ("messages",
          VArr [VObj [("role", VStr "system"); ("content", system)];
                VObj [("role", VStr "user"); ("content", user)]]);
        ("temperature", VNum temperature);
        ("max_tokens", VNum max_tokens)].

(** A well-formed completion body: an object whose [choices] is an array
    whose first element is an object with a [message] object, whose
    [content] property is [oc] ([None]: no [content] property). *)
Definition first_message_content (d : val) (oc : option val) : Prop :=
  exists kvs ch rest m,
    d = VObj kvs /\
    obj_lookup kvs "choices" = Some (VArr (VObj ch :: rest)) /\
    obj_lookup ch "message" = Some (VObj m) /\
    obj_lookup m "content" = oc.

(** The generated text [t] read from a completion body by
    [data.choices[0]?.message?.content], when it is truthy. *)
Definition generated_text (d t : val) : Prop :=
  exists choices first msg,
    prop d (KName "choices") = Ret choices /\
    prop choices (KIdx 0) = Ret first /\
    opt_prop first (KName "message") = Ret msg /\
    opt_prop msg (KName "content") = Ret t /\
    truthy t = true.

(** The steps of the handler that raise. *)
Inductive raises (env : option string) (fetch : call -> fetch_result)
    (req : request) : Prop :=
| raises_request_json :
    req_json req = None -> raises env fetch req
| raises_destructure : forall v,
    req_json req = Some v -> is_nullish v = true -> raises env fetch req
| raises_fetch : forall c,
    outbound env req = Some c -> fetch c = FNetErr -> raises env fetch req
| raises_response_json : forall c,
    outbound env req = Some c -> fetch c = FResp true None -> raises env fetch req
| raises_choices : forall c d,
    outbound env req = Some c -> fetch c = FResp true (Some d) ->
    is_nullish d = true -> raises env fetch req
| raises_first_choice : forall c d choices,
    outbound env req = Some c -> fetch c = FResp true (Some d) ->
    prop d (KName "choices") = Ret choices -> is_nullish choices = true ->
    raises env fetch req.

(** ** Sample inputs *)

Definition completion (content : val) : val :=
  VObj [("id", VStr "chatcmpl-1");
        ("choices", VArr [VObj [("index", VNum 0);
                                ("message", VObj [("role", VStr "assistant");
                                                  ("content", content)])]])].

Definition hello_request : request :=
  mkRequest (Some (VObj [("message", VStr "hi"); ("context", VStr "You help visitors.")])).

Definition answering (content : val) : call -> fetch_result :=
  fun _ => FResp true (Some (completion content)).

Example POST_hello :
  POST None (answering (VStr "Hello!")) hello_request = reply (VStr "Hello!").
Proof. reflexivity. Qed.

Example POST_unauthorized :
  POST None (fun _ => FResp false (Some (VObj []))) hello_request
  = reply (VStr fallback_capabilities).
Proof. reflexivity. Qed.

Example POST_offline :
  POST None (fun _ => FNetErr) hello_request = reply (VStr fallback_invitation).
Proof. reflexivity. Qed.

Example POST_bad_body :
  POST (Some "gsk_real") (answering (VStr "Hello!")) (mkRequest None)
  = reply (VStr fallback_invitation).
Proof. reflexivity. Qed.

Example POST_null_body :
  POST None (answering (VStr "Hello!")) (mkRequest (Some VNull))
  = reply (VStr fallback_invitation).
Proof. reflexivity. Qed.

Example outbound_hello :
  outbound None hello_request =
  Some {| call_url := groq_url; call_method := "POST";
          call_authorization := "Bearer gsk_demo_key";
          call_content_type := "application/json";
          call_body := expected_body (VStr "You help visitors.") (VStr "hi") |}.
Proof. reflexivity. Qed.

(** ** Lemmas about the handler *)

Lemma POST_try_reply : forall env fetch req r,
  POST_try env fetch req = Ret r -> exists m, r = reply m.
Proof.
  intros env fetch req r H; unfold POST_try in H.
  destruct (prepare env req) as [e|c]; [discriminate|]; simpl in H.
  destruct (do_fetch fetch c) as [e|[ok j]]; [discriminate|]; simpl in H.
  destruct ok; simpl in H.
  - destruct (response_json j) as [e|d]; [discriminate|]; simpl in H.
    destruct (extract_bot_message d) as [e|m]; [discriminate|]; simpl in H.
    injection H as <-; eauto.
  - injection H as <-; eauto.
Qed.

Lemma POST_is_reply : forall env fetch req,
  exists m, POST env fetch req = reply m.
Proof.
  intros env fetch req; unfold POST.
  destruct (POST_try env fetch req) as [e|r] eqn:E; eauto.
  apply POST_try_reply in E; exact E.
Qed.

Lemma outbound_prepare : forall env req c,
  outbound env req = Some c -> prepare env req = Ret c.
Proof.
  unfold outbound; intros env req c H.
  destruct (prepare env req); [discriminate | congruence].
Qed.

Lemma POST_after_fetch : forall env fetch req c,
  outbound env req = Some c ->
  POST env fetch req =
  match fetch c with
  | FNetErr => reply (VStr fallback_invitation)
  | FResp false _ => reply (VStr fallback_capabilities)
  | FResp true None => reply (VStr fallback_invitation)
  | FResp true (Some d) =>
      match extract_bot_message d with
      | Ret m => reply m
      | Throw _ => reply (VStr fallback_invitation)
      end
  end.
Proof.
  intros env fetch req c H; apply outbound_prepare in H.
  unfold POST, POST_try; rewrite H; simpl.
  unfold do_fetch; destruct (fetch c) as [|[|] [d|]]; simpl; try reflexivity.
  destruct (extract_bot_message d); reflexivity.
Qed.

Lemma prop_not_nullish : forall v k,
  is_nullish v = false -> exists x, prop v k = Ret x.
Proof. intros [] k H; try discriminate; simpl; eauto. Qed.

Lemma opt_prop_ret : forall v k, exists x, opt_prop v k = Ret x.
Proof. intros [] k; unfold opt_prop; simpl; eauto. Qed.

Lemma prepare_ok : forall env req v msg ctx,
  req_json req = Some v ->
  prop v (KName "message") = Ret msg ->
  prop v (KName "context") = Ret ctx ->
  is_nullish v = false ->
  outbound env req = Some (build_call (groq_api_key env) msg ctx).
Proof.
  intros env req v msg ctx Hj Hm Hc Hn.
  unfold outbound, prepare, request_json; rewrite Hj; simpl.
  unfold destructure; rewrite Hn, Hm; simpl; rewrite Hc; reflexivity.
Qed.

Lemma extract_first_message_content : forall d oc,
  first_message_content d oc ->
  extract_bot_message d =
  Ret (js_or (match oc with Some v => v | None => VUndef end) (VStr apology)).
Proof.
  intros d oc (kvs & ch & rest & m & -> & Hch & Hm & Hc).
  unfold extract_bot_message; simpl; rewrite Hch; simpl.
  unfold opt_prop; simpl; rewrite Hm; simpl; rewrite Hc.
  destruct oc; reflexivity.
Qed.

(** ** Claims *)

(** Closes [status = 200 /\ content_type = json /\ exists m, body = .. /\ P m]
    for a reply whose message is one of the disjuncts of [P]. *)
Ltac fixed_reply :=
  split; [reflexivity|]; split; [reflexivity|];
  eexists; split; [reflexivity|]; tauto.

(** The sample provider answer whose generated content is the number 42. *)
Definition answer_42 : call -> fetch_result := answering (VNum 42).

(** C1 (counterexample): the reply's [message] field is not always a string:
    a success response whose first choice has the truthy non-string content
    [42] is forwarded as is, giving the body [{ message: 42 }]. *)
Lemma C1_counterexample :
  body (POST None answer_42 hello_request) = VObj [("message", VNum 42)] /\
  ~ (status (POST None answer_42 hello_request) = 200%Z /\
     exists s, body (POST None answer_42 hello_request) = VObj [("message", VStr s)]).
Proof.
  split; [reflexivity|].
  intros [_ [s Hs]]; vm_compute in Hs; discriminate.
Qed.

(** C1 (amended): for every request, [POST] answers with status 200, a JSON
    content type and a body [{ message: m }], where [m] is one of the three
    fixed strings (capability fallback, invitation fallback, apology) or the
    truthy first-choice content of a success response of the provider,
    forwarded verbatim. *)
Theorem POST_always_200_message : forall env fetch req,
  status (POST env fetch req) = 200%Z /\
  content_type (POST env fetch req) = "application/json" /\
  exists m, body (POST env fetch req) = VObj [("message", m)] /\
    (m = VStr fallback_capabilities \/ m = VStr fallback_invitation \/
     m = VStr apology \/
     exists c d, outbound env req = Some c /\ fetch c = FResp true (Some d) /\
                 generated_text d m).
Proof.
  intros env fetch req.
  destruct (outbound env req) as [c|] eqn:Ho.
  - rewrite (POST_after_fetch env fetch req c Ho).
    destruct (fetch c) as [|[|] [d|]] eqn:Hf;
      try (fixed_reply).
    destruct (extract_bot_message d) as [e|m] eqn:He;
      [fixed_reply|].
    split; [reflexivity|]; split; [reflexivity|]; exists m; split; [reflexivity|].
    unfold extract_bot_message in He.
    destruct (prop d (KName "choices")) as [|choices] eqn:H1; [discriminate|]; simpl in He.
    destruct (prop choices (KIdx 0)) as [|first] eqn:H2; [discriminate|]; simpl in He.
    destruct (opt_prop first (KName "message")) as [|msg] eqn:H3; [discriminate|]; simpl in He.
    destruct (opt_prop msg (KName "content")) as [|t] eqn:H4; [discriminate|]; simpl in He.
    injection He as <-; unfold js_or.
    destruct (truthy t) eqn:Ht; [|tauto].
    right; right; right; exists c, d; split; [reflexivity|split; [exact Hf|]].
    exists choices, first, msg; auto.
  - assert (Hp : exists e, POST_try env fetch req = Throw e).
    { unfold outbound in Ho; unfold POST_try.
      destruct (prepare env req) as [e|c]; simpl in *; [eauto|discriminate]. }
    destruct Hp as [e Hp]; unfold POST; rewrite Hp.
    fixed_reply.
Qed.

(** C2: when the upstream call returns a non-success response (e.g. 401 for
    an unconfigured credential), [POST] answers with the fixed capability
    description, as a status-200 reply. *)
Theorem POST_upstream_rejected : forall env fetch req c j,
  outbound env req = Some c ->
  fetch c = FResp false j ->
  POST env fetch req = reply (VStr fallback_capabilities).
Proof.
  intros env fetch req c j Ho Hf.
  rewrite (POST_after_fetch env fetch req c Ho), Hf; reflexivity.
Qed.

Lemma POST_upstream_rejected_witness :
  outbound (Some "gsk_revoked") hello_request
    = Some (build_call "gsk_revoked" (VStr "hi") (VStr "You help visitors.")) /\
  POST (Some "gsk_revoked") (fun _ => FResp false (Some (VObj [("error", VStr "invalid_api_key")])))
       hello_request = reply (VStr fallback_capabilities).
Proof.
  split; [reflexivity|].
  apply (POST_upstream_rejected (Some "gsk_revoked")
           (fun _ => FResp false (Some (VObj [("error", VStr "invalid_api_key")])))
           hello_request (build_call "gsk_revoked" (VStr "hi") (VStr "You help visitors."))
           (Some (VObj [("error", VStr "invalid_api_key")]))); reflexivity.
Defined.

(** Every raise of the [try] block is one of the steps listed by [raises]. *)
Lemma POST_try_throw_raises : forall env fetch req e,
  POST_try env fetch req = Throw e -> raises env fetch req.
Proof.
  intros env fetch req e H.
  destruct (outbound env req) as [c|] eqn:Ho.
  - pose proof (outbound_prepare _ _ _ Ho) as Hp.
    unfold POST_try in H; rewrite Hp in H; simpl in H; unfold do_fetch in H.
    destruct (fetch c) as [|[|] [d|]] eqn:Hf; simpl in H; try discriminate.
    + eapply raises_fetch; eauto.
    + unfold extract_bot_message in H.
      destruct (prop d (KName "choices")) as [e1|choices] eqn:H1.
      * eapply raises_choices; eauto; destruct d; try discriminate; reflexivity.
      * simpl in H; destruct (prop choices (KIdx 0)) as [e2|first] eqn:H2.
        -- eapply raises_first_choice; eauto; destruct choices; try discriminate; reflexivity.
        -- simpl in H; destruct (opt_prop_ret first (KName "message")) as [msg Hm].
           rewrite Hm in H; simpl in H.
           destruct (opt_prop_ret msg (KName "content")) as [t Ht].
           rewrite Ht in H; discriminate.
    + eapply raises_response_json; eauto.
  - unfold outbound, prepare, request_json in Ho.
    destruct (req_json req) as [v|] eqn:Hj; [|apply raises_request_json; exact Hj].
    simpl in Ho; unfold destructure in Ho.
    destruct (is_nullish v) eqn:Hn; [eapply raises_destructure; eauto|].
    destruct (prop_not_nullish v (KName "message") Hn) as [m Hm].
    destruct (prop_not_nullish v (KName "context") Hn) as [x Hx].
    rewrite Hm in Ho; simpl in Ho; rewrite Hx in Ho; discriminate.
Qed.

(** C3: whenever a step of the handler raises (invalid request JSON, a
    [null] body, a network failure, an unparsable upstream body, a missing
    [choices]), the error is caught and [POST] answers with the fixed
    invitation string, as a status-200 reply. *)
Theorem POST_raise_caught : forall env fetch req,
  raises env fetch req ->
  POST env fetch req = reply (VStr fallback_invitation).
Proof.
  intros env fetch req H; destruct H as
    [Hj | v Hj Hn | c Ho Hf | c Ho Hf | c d Ho Hf Hn | c d ch Ho Hf Hc Hn].
  - unfold POST, POST_try, prepare, request_json; rewrite Hj; reflexivity.
  - unfold POST, POST_try, prepare, request_json; rewrite Hj; simpl.
    unfold destructure; rewrite Hn; reflexivity.
  - rewrite (POST_after_fetch env fetch req c Ho), Hf; reflexivity.
  - rewrite (POST_after_fetch env fetch req c Ho), Hf; reflexivity.
  - rewrite (POST_after_fetch env fetch req c Ho), Hf.
    destruct d; try discriminate; reflexivity.
  - rewrite (POST_after_fetch env fetch req c Ho), Hf.
    unfold extract_bot_message; rewrite Hc; simpl.
    destruct ch; try discriminate; reflexivity.
Qed.

Lemma POST_raise_caught_witness :
  raises None (fun _ => FNetErr) hello_request /\
  POST None (fun _ => FNetErr) hello_request = reply (VStr fallback_invitation).
Proof.
  assert (H : raises None (fun _ => FNetErr) hello_request)
    by (eapply raises_fetch; reflexivity).
  split; [exact H|].
  apply (POST_raise_caught None (fun _ => FNetErr) hello_request H).
Defined.

(** C4: when the upstream success response is a well-formed completion
    whose first message content is ["Hello!"], [POST] answers
    [{ message: "Hello!" }]. *)
Theorem POST_forwards_hello : forall env fetch req c d,
  outbound env req = Some c ->
  fetch c = FResp true (Some d) ->
  first_message_content d (Some (VStr "Hello!")) ->
  POST env fetch req = reply (VStr "Hello!").
Proof.
  intros env fetch req c d Ho Hf Hd.
  rewrite (POST_after_fetch env fetch req c Ho), Hf.
  rewrite (extract_first_message_content d _ Hd); reflexivity.
Qed.

Lemma POST_forwards_hello_witness :
  POST None (answering (VStr "Hello!")) hello_request = reply (VStr "Hello!").
Proof.
  apply (POST_forwards_hello None (answering (VStr "Hello!")) hello_request
           (build_call demo_key (VStr "hi") (VStr "You help visitors."))
           (completion (VStr "Hello!"))); try reflexivity.
  unfold first_message_content, completion; do 4 eexists; repeat split; reflexivity.
Defined.

(** C5: when the upstream success response has an empty [choices] array,
    [POST] answers with the apology string, as a status-200 reply. *)
Theorem POST_no_choices_apology : forall env fetch req c kvs,
  outbound env req = Some c ->
  fetch c = FResp true (Some (VObj kvs)) ->
  obj_lookup kvs "choices" = Some (VArr []) ->
  POST env fetch req = reply (VStr apology).
Proof.
  intros env fetch req c kvs Ho Hf Hc.
  rewrite (POST_after_fetch env fetch req c Ho), Hf.
  unfold extract_bot_message; simpl; rewrite Hc; reflexivity.
Qed.

Lemma POST_no_choices_apology_witness :
  POST None (fun _ => FResp true (Some (VObj [("id", VStr "x"); ("choices", VArr [])])))
       hello_request = reply (VStr apology).
Proof.
  apply (POST_no_choices_apology None
           (fun _ => FResp true (Some (VObj [("id", VStr "x"); ("choices", VArr [])])))
           hello_request (build_call demo_key (VStr "hi") (VStr "You help visitors."))
           [("id", VStr "x"); ("choices", VArr [])]); reflexivity.
Defined.

(** A success body without any [choices] property is not an empty
    generation: [data.choices[0]] raises and the invitation is returned. *)
Lemma POST_missing_choices_invitation :
  POST None (fun _ => FResp true (Some (VObj [("id", VStr "x")]))) hello_request
  = reply (VStr fallback_invitation).
Proof. reflexivity. Qed.

(** C6 (counterexample): a request with the non-empty message ["hi"] gets a
    reply whose [message] field is the number [42], not a non-empty string,
    when the provider's first-choice content is [42]. *)
Lemma C6_counterexample :
  req_json hello_request = Some (VObj [("message", VStr "hi"); ("context", VStr "You help visitors.")]) /\
  ~ exists s, s <> "" /\ body (POST None answer_42 hello_request) = VObj [("message", VStr s)].
Proof.
  split; [reflexivity|].
  intros [s [_ Hs]]; vm_compute in Hs; discriminate.
Qed.

(** C6 (amended): for a request whose [message] is a non-empty string, the
    reply's [message] field is truthy on every path; it is a non-empty
    string unless the provider's success response carries a truthy
    non-string first-choice content, which is forwarded as is. *)
Theorem POST_message_nonempty : forall env fetch req v s,
  req_json req = Some v ->
  prop v (KName "message") = Ret (VStr s) ->
  s <> "" ->
  exists m, body (POST env fetch req) = VObj [("message", m)] /\
    truthy m = true /\
    ((exists s', m = VStr s' /\ s' <> "") \/
     (exists c d, outbound env req = Some c /\ fetch c = FResp true (Some d) /\
                  generated_text d m /\ forall s', m <> VStr s')).
Proof.
  intros env fetch req v s _ _ _.
  destruct (POST_always_200_message env fetch req) as (_ & _ & m & Hb & Hm).
  exists m; split; [exact Hb|].
  destruct Hm as [-> | [-> | [-> | (c & d & Ho & Hf & Hg)]]];
    try (split; [reflexivity|left; eexists; split; [reflexivity|discriminate]]).
  assert (Ht : truthy m = true) by (destruct Hg as (_ & _ & _ & _ & _ & _ & _ & Ht); exact Ht).
  split; [exact Ht|].
  destruct m as [| | | |s'| |]; try (right; exists c, d; repeat split; auto; discriminate).
  left; exists s'; split; [reflexivity|].
  intros ->; discriminate.
Qed.

Lemma POST_message_nonempty_witness :
  exists m, body (POST None (answering (VStr "Hello!")) hello_request) = VObj [("message", m)] /\
    truthy m = true /\
    ((exists s', m = VStr s' /\ s' <> "") \/
     (exists c d, outbound None hello_request = Some c /\
                  answering (VStr "Hello!") c = FResp true (Some d) /\
                  generated_text d m /\ forall s', m <> VStr s')).
Proof.
  apply (POST_message_nonempty None (answering (VStr "Hello!")) hello_request
           (VObj [("message", VStr "hi"); ("context", VStr "You help visitors.")]) "hi");
    [reflexivity | reflexivity | discriminate].
Defined.

Definition empty_context_request : request :=
  mkRequest (Some (VObj [("message", VStr "hi"); ("context", VStr "")])).

(** C7 (counterexample): with [context] present but empty, the system
    instruction sent upstream is the default one, not the request's
    [context]. *)
Lemma C7_counterexample :
  exists c, outbound None empty_context_request = Some c /\
    call_body c = expected_body (VStr default_system) (VStr "hi") /\
    call_body c <> expected_body (VStr "") (VStr "hi").
Proof.
  eexists; split; [reflexivity|]; split; [reflexivity|].
  vm_compute; discriminate.
Qed.

(** C7 (amended): whenever the request body is an object-like value, the
    handler sends one POST to the Groq completion URL whose body selects the
    fixed model, temperature 0.7 and at most 500 tokens, with two ordered
    instructions: the system one is [context] when truthy and the generic
    default otherwise (absent, [null], [""], [false], [0]); the user one is
    [message]. *)
Theorem outbound_call_shape : forall env req v msg ctx,
  req_json req = Some v ->
  is_nullish v = false ->
  prop v (KName "message") = Ret msg ->
  prop v (KName "context") = Ret ctx ->
  exists c, outbound env req = Some c /\
    call_url c = groq_url /\ call_method c = "POST" /\
    call_body c = expected_body (if truthy ctx then ctx else VStr default_system) msg.
Proof.
  intros env req v msg ctx Hj Hn Hm Hc.
  rewrite (prepare_ok env req v msg ctx Hj Hm Hc Hn).
  eexists; split; [reflexivity|]; split; [reflexivity|]; split; [reflexivity|].
  reflexivity.
Qed.

Lemma outbound_call_shape_witness :
  exists c, outbound None empty_context_request = Some c /\
    call_url c = groq_url /\ call_method c = "POST" /\
    call_body c = expected_body (if truthy (VStr "") then VStr "" else VStr default_system) (VStr "hi").
Proof.
  apply (outbound_call_shape None empty_context_request
           (VObj [("message", VStr "hi"); ("context", VStr "")]) (VStr "hi") (VStr ""));
    reflexivity.
Defined.

(** C8: with [GROQ_API_KEY] unset, the handler does not fail: it sends the
    call with the placeholder credential [gsk_demo_key], answers with status
    200, and a rejection of that credential (non-success response) yields
    the capability fallback, a network failure the invitation fallback. *)
Theorem POST_without_key : forall fetch req v,
  req_json req = Some v ->
  is_nullish v = false ->
  exists c, outbound None req = Some c /\
    call_authorization c = "Bearer gsk_demo_key" /\
    status (POST None fetch req) = 200%Z /\
    (forall j, fetch c = FResp false j ->
       POST None fetch req = reply (VStr fallback_capabilities)) /\
    (fetch c = FNetErr -> POST None fetch req = reply (VStr fallback_invitation)).
Proof.
  intros fetch req v Hj Hn.
  destruct (prop_not_nullish v (KName "message") Hn) as [msg Hm].
  destruct (prop_not_nullish v (KName "context") Hn) as [ctx Hc].
  pose proof (prepare_ok None req v msg ctx Hj Hm Hc Hn) as Ho.
  eexists; split; [exact Ho|]; split; [reflexivity|]; split.
  - destruct (POST_always_200_message None fetch req) as [Hs _]; exact Hs.
  - split.
    + intros j Hf; exact (POST_upstream_rejected None fetch req _ j Ho Hf).
    + intros Hf; apply POST_raise_caught; eapply raises_fetch; eauto.
Qed.

Definition reject_all : call -> fetch_result :=
  fun _ => FResp false (Some (VObj [("error", VObj [("message", VStr "Invalid API Key")])])).

Lemma POST_without_key_witness :
  exists c, outbound None hello_request = Some c /\
    call_authorization c = "Bearer gsk_demo_key" /\
    status (POST None reject_all hello_request) = 200%Z /\
    (forall j, reject_all c = FResp false j ->
       POST None reject_all hello_request = reply (VStr fallback_capabilities)) /\
    (reject_all c = FNetErr ->
       POST None reject_all hello_request = reply (VStr fallback_invitation)).
Proof.
  apply (POST_without_key reject_all hello_request
           (VObj [("message", VStr "hi"); ("context", VStr "You help visitors.")]));
    reflexivity.
Defined.

(** C9: an empty generated text is not forwarded: a first message whose
    [content] is [""] and one without [content] both give the apology. *)
Theorem POST_empty_text_apology : forall env f1 f2 req c d1 d2,
  outbound env req = Some c ->
  f1 c = FResp true (Some d1) ->
  first_message_content d1 (Some (VStr "")) ->
  f2 c = FResp true (Some d2) ->
  first_message_content d2 None ->
  POST env f1 req = reply (VStr apology) /\
  POST env f2 req = reply (VStr apology).
Proof.
  intros env f1 f2 req c d1 d2 Ho H1 Hd1 H2 Hd2; split.
  - rewrite (POST_after_fetch env f1 req c Ho), H1.
    rewrite (extract_first_message_content d1 _ Hd1); reflexivity.
  - rewrite (POST_after_fetch env f2 req c Ho), H2.
    rewrite (extract_first_message_content d2 _ Hd2); reflexivity.
Qed.

Definition no_content_completion : val :=
  VObj [("choices", VArr [VObj [("message", VObj [("role", VStr "assistant")])]])].

Lemma POST_empty_text_apology_witness :
  POST None (answering (VStr "")) hello_request = reply (VStr apology) /\
  POST None (fun _ => FResp true (Some no_content_completion)) hello_request
  = reply (VStr apology).
Proof.
  apply (POST_empty_text_apology None (answering (VStr ""))
           (fun _ => FResp true (Some no_content_completion)) hello_request
           (build_call demo_key (VStr "hi") (VStr "You help visitors."))
           (completion (VStr "")) no_content_completion);
    try reflexivity;
    unfold first_message_content; do 4 eexists; repeat split; reflexivity.
Defined.

(** C10: a [context] present as [""] is replaced by the default system
    instruction, and the handler sends exactly the call it sends for the
    same message without any [context]. *)
Theorem empty_context_is_default : forall env req v msg,
  req_json req = Some v ->
  is_nullish v = false ->
  prop v (KName "message") = Ret msg ->
  prop v (KName "context") = Ret (VStr "") ->
  exists c, outbound env req = Some c /\
    call_body c = expected_body (VStr default_system) msg /\
    outbound env (mkRequest (Some (VObj [("message", msg)]))) = Some c.
Proof.
  intros env req v msg Hj Hn Hm Hc.
  rewrite (prepare_ok env req v msg (VStr "") Hj Hm Hc Hn).
  eexists; split; [reflexivity|]; split; [reflexivity|].
  rewrite (prepare_ok env (mkRequest (Some (VObj [("message", msg)])))
             (VObj [("message", msg)]) msg VUndef); reflexivity.
Qed.

Lemma empty_context_is_default_witness :
  exists c, outbound None empty_context_request = Some c /\
    call_body c = expected_body (VStr default_system) (VStr "hi") /\
    outbound None (mkRequest (Some (VObj [("message", VStr "hi")]))) = Some c.
Proof.
  apply (empty_context_is_default None empty_context_request
           (VObj [("message", VStr "hi"); ("context", VStr "")]) (VStr "hi"));
    reflexivity.
Defined.

(** ** Further properties of the handler *)

Lemma extract_generated_or_apology : forall d m,
  extract_bot_message d = Ret m -> generated_text d m \/ m = VStr apology.
Proof.
  intros d m He; unfold extract_bot_message in He.
  destruct (prop d (KName "choices")) as [|choices] eqn:H1; [discriminate|]; simpl in He.
  destruct (prop choices (KIdx 0)) as [|first] eqn:H2; [discriminate|]; simpl in He.
  destruct (opt_prop first (KName "message")) as [|msg] eqn:H3; [discriminate|]; simpl in He.
  destruct (opt_prop msg (KName "content")) as [|t] eqn:H4; [discriminate|]; simpl in He.
  injection He as <-; unfold js_or.
  destruct (truthy t) eqn:Ht; [left | right; reflexivity].
  exists choices, first, msg; auto.
Qed.

(** The steps listed by [raises] are exactly the ones at which the [try]
    block raises. *)
Theorem raises_iff_try_throws : forall env fetch req,
  raises env fetch req <-> exists e, POST_try env fetch req = Throw e.
Proof.
  intros env fetch req; split.
  - intros H; destruct H as
      [Hj | v Hj Hn | c Ho Hf | c Ho Hf | c d Ho Hf Hn | c d ch Ho Hf Hc Hn];
      unfold POST_try.
    + unfold prepare, request_json; rewrite Hj; simpl; eauto.
    + unfold prepare, request_json; rewrite Hj; simpl.
      unfold destructure; rewrite Hn; simpl; eauto.
    + rewrite (outbound_prepare _ _ _ Ho); simpl; unfold do_fetch; rewrite Hf; simpl; eauto.
    + rewrite (outbound_prepare _ _ _ Ho); simpl; unfold do_fetch; rewrite Hf; simpl; eauto.
    + rewrite (outbound_prepare _ _ _ Ho); simpl; unfold do_fetch; rewrite Hf; simpl.
      unfold extract_bot_message; destruct d; try discriminate; simpl; eauto.
    + rewrite (outbound_prepare _ _ _ Ho); simpl; unfold do_fetch; rewrite Hf; simpl.
      unfold extract_bot_message; rewrite Hc; simpl.
      destruct ch; try discriminate; simpl; eauto.
  - intros [e H]; exact (POST_try_throw_raises env fetch req e H).
Qed.

(** No upstream call is made for a request body that is not JSON or is
    [null]; such a request always gets the invitation fallback. *)
Theorem no_call_on_bad_body : forall env req,
  req_json req = None \/ req_json req = Some VNull ->
  outbound env req = None /\
  forall fetch, POST env fetch req = reply (VStr fallback_invitation).
Proof.
  intros env req Hj; split.
  - unfold outbound, prepare, request_json.
    destruct Hj as [Hj|Hj]; rewrite Hj; reflexivity.
  - intros fetch; apply POST_raise_caught.
    destruct Hj as [Hj|Hj];
      [apply raises_request_json; exact Hj | eapply raises_destructure; eauto].
Qed.

Lemma no_call_on_bad_body_witness :
  outbound None (mkRequest (Some VNull)) = None /\
  forall fetch, POST None fetch (mkRequest (Some VNull)) = reply (VStr fallback_invitation).
Proof. apply no_call_on_bad_body; right; reflexivity. Defined.

(** A request body that parses to a non-object JSON value (a string, a
    number, a boolean, an array) does not raise: the call is still sent,
    with the default system instruction and an [undefined] user content. *)
Theorem primitive_body_still_calls : forall env req v,
  req_json req = Some v ->
  match v with VStr _ | VNum _ | VBool _ | VArr _ => True | _ => False end ->
  exists c, outbound env req = Some c /\
    call_body c = expected_body (VStr default_system) VUndef.
Proof.
  intros env req v Hj Hv.
  destruct v; try contradiction;
    (rewrite (prepare_ok env req _ VUndef VUndef Hj); [eexists; split; reflexivity | reflexivity ..]).
Qed.

Lemma primitive_body_still_calls_witness :
  exists c, outbound None (mkRequest (Some (VStr "hello"))) = Some c /\
    call_body c = expected_body (VStr default_system) VUndef.
Proof. apply (primitive_body_still_calls None _ (VStr "hello")); exact I || reflexivity. Defined.

(** The credential only changes the Authorization header: the URL, method,
    content type and body of the outbound call, and whether a call is made
    at all, do not depend on [GROQ_API_KEY]. *)
Theorem outbound_independent_of_key : forall env1 env2 req,
  option_map (fun c => (call_url c, call_method c, call_content_type c, call_body c))
    (outbound env1 req) =
  option_map (fun c => (call_url c, call_method c, call_content_type c, call_body c))
    (outbound env2 req).
Proof.
  intros env1 env2 req; unfold outbound, prepare, request_json.
  destruct (req_json req) as [v|]; simpl; [|reflexivity].
  destruct (destructure v) as [e|[m c]]; reflexivity.
Qed.

(** A configured, non-empty [GROQ_API_KEY] is the bearer credential of the
    call; an empty one is treated like an unset one. *)
Theorem configured_key_is_used : forall k req c,
  outbound (Some k) req = Some c ->
  k <> "" ->
  call_authorization c = "Bearer " ++ k /\
  outbound (Some "") req = outbound None req.
Proof.
  intros k req c Ho Hk; split.
  - unfold outbound, prepare, request_json in Ho.
    destruct (req_json req) as [v|]; simpl in Ho; [|discriminate].
    destruct (destructure v) as [e|[m x]]; simpl in Ho; [discriminate|].
    injection Ho as <-; simpl; unfold groq_api_key.
    destruct (String.eqb k "") eqn:E; [apply String.eqb_eq in E; contradiction | reflexivity].
  - reflexivity.
Qed.

Lemma configured_key_is_used_witness :
  call_authorization (build_call "gsk_live" (VStr "hi") (VStr "You help visitors."))
    = "Bearer gsk_live" /\
  outbound (Some "") hello_request = outbound None hello_request.
Proof.
  apply (configured_key_is_used "gsk_live" hello_request); [reflexivity | discriminate].
Defined.

(** For a well-formed completion, the reply is the first message's content
    when it is truthy (forwarded unchanged) and the apology when it is
    falsy or missing ([""], [null], [false], [0], absent). *)
Theorem POST_forwards_content : forall env fetch req c d oc,
  outbound env req = Some c ->
  fetch c = FResp true (Some d) ->
  first_message_content d oc ->
  POST env fetch req =
  reply (match oc with
         | Some v => if truthy v then v else VStr apology
         | None => VStr apology
         end).
Proof.
  intros env fetch req c d oc Ho Hf Hd.
  rewrite (POST_after_fetch env fetch req c Ho), Hf.
  rewrite (extract_first_message_content d oc Hd).
  destruct oc as [v|]; reflexivity.
Qed.

Lemma POST_forwards_content_witness :
  POST None (answering (VBool false)) hello_request = reply (VStr apology).
Proof.
  apply (POST_forwards_content None (answering (VBool false)) hello_request
           (build_call demo_key (VStr "hi") (VStr "You help visitors."))
           (completion (VBool false)) (Some (VBool false))); try reflexivity.
  unfold first_message_content, completion; do 4 eexists; repeat split; reflexivity.
Defined.

(** A [null] (or missing) first element of [choices] is absorbed by the
    optional chaining: the reply is the apology, not a fallback. *)
Theorem POST_null_first_choice : forall env fetch req c kvs x rest,
  outbound env req = Some c ->
  fetch c = FResp true (Some (VObj kvs)) ->
  obj_lookup kvs "choices" = Some (VArr (x :: rest)) ->
  is_nullish x = true ->
  POST env fetch req = reply (VStr apology).
Proof.
  intros env fetch req c kvs x rest Ho Hf Hc Hx.
  rewrite (POST_after_fetch env fetch req c Ho), Hf.
  unfold extract_bot_message; simpl; rewrite Hc; simpl.
  unfold opt_prop; rewrite Hx; reflexivity.
Qed.

Lemma POST_null_first_choice_witness :
  POST None (fun _ => FResp true (Some (VObj [("choices", VArr [VNull])]))) hello_request
  = reply (VStr apology).
Proof.
  apply (POST_null_first_choice None
           (fun _ => FResp true (Some (VObj [("choices", VArr [VNull])]))) hello_request
           (build_call demo_key (VStr "hi") (VStr "You help visitors."))
           [("choices", VArr [VNull])] VNull []); reflexivity.
Defined.

(** The capability text reaches the caller only when the provider rejected
    the call or itself generated that exact text. *)
Theorem capabilities_only_on_rejection : forall env fetch req,
  POST env fetch req = reply (VStr fallback_capabilities) ->
  (exists c j, outbound env req = Some c /\ fetch c = FResp false j) \/
  (exists c d, outbound env req = Some c /\ fetch c = FResp true (Some d) /\
               generated_text d (VStr fallback_capabilities)).
Proof.
  intros env fetch req H.
  destruct (outbound env req) as [c|] eqn:Ho.
  - rewrite (POST_after_fetch env fetch req c Ho) in H.
    destruct (fetch c) as [|[|] [d|]] eqn:Hf; try discriminate.
    + destruct (extract_bot_message d) as [e|m] eqn:He; [discriminate|].
      injection H as ->.
      destruct (extract_generated_or_apology d _ He) as [Hg|Ha]; [|discriminate].
      right; exists c, d; auto.
    + left; eauto.
    + left; eauto.
  - assert (Hr : raises env fetch req).
    { apply raises_iff_try_throws; unfold outbound in Ho; unfold POST_try.
      destruct (prepare env req); simpl in *; [eauto|discriminate]. }
    rewrite (POST_raise_caught env fetch req Hr) in H; discriminate.
Qed.

Lemma capabilities_only_on_rejection_witness :
  (exists c j, outbound None hello_request = Some c /\
     (fun _ : call => FResp false None) c = FResp false j) \/
  (exists c d, outbound None hello_request = Some c /\
     (fun _ : call => FResp false None) c = FResp true (Some d) /\
     generated_text d (VStr fallback_capabilities)).
Proof.
  apply (capabilities_only_on_rejection None (fun _ => FResp false None) hello_request).
  reflexivity.
Defined.

(** ** Properties of the chatbot context template *)

Lemma str_app_assoc : forall a b c : string, (a ++ b) ++ c = a ++ (b ++ c).
Proof. induction a as [|x a IH]; intros b c; simpl; [reflexivity | now rewrite IH]. Qed.

Lemma str_app_nil_r : forall a : string, a ++ "" = a.
Proof. induction a as [|x a IH]; simpl; [reflexivity | now rewrite IH]. Qed.

(** [s] occurs in [t]. *)
Definition infix (s t : string) : Prop := exists pre post, t = pre ++ s ++ post.

Lemma infix_refl : forall s, infix s s.
Proof. intros s; exists "", ""; simpl; now rewrite str_app_nil_r. Qed.

Lemma infix_app_l : forall s a t, infix s t -> infix s (a ++ t).
Proof.
  intros s a t (pre & post & ->); exists (a ++ pre), post.
  now rewrite str_app_assoc.
Qed.

Lemma infix_app_r : forall s t b, infix s t -> infix s (t ++ b).
Proof.
  intros s t b (pre & post & ->); exists pre, (post ++ b).
  now rewrite !str_app_assoc.
Qed.

Lemma infix_trans : forall s t u, infix s t -> infix t u -> infix s u.
Proof.
  intros s t u (p1 & q1 & ->) (p2 & q2 & ->).
  exists (p2 ++ p1), (q1 ++ q2); now rewrite !str_app_assoc.
Qed.

Lemma join_infix : forall sep x xs, In x xs -> infix x (join sep xs).
Proof.
  intros sep x xs; induction xs as [|y [|z r] IH]; intros Hin.
  - destruct Hin.
  - destruct Hin as [->|[]]; apply infix_refl.
  - destruct Hin as [->|Hin].
    + change (infix x (x ++ sep ++ join sep (z :: r))).
      apply infix_app_r with (t := x), infix_refl.
    + change (infix x (y ++ sep ++ join sep (z :: r))).
      apply infix_app_l, infix_app_l, IH, Hin.
Qed.

(** An element of a newline-joined list, framed by newlines, is a line. *)
Lemma join_line_infix : forall x xs,
  In x xs -> infix (nl ++ x ++ nl) (nl ++ join nl xs ++ nl).
Proof.
  intros x xs; induction xs as [|y [|z r] IH]; intros Hin.
  - destruct Hin.
  - destruct Hin as [->|[]]; apply infix_refl.
  - destruct Hin as [->|Hin].
    + change (infix (nl ++ x ++ nl) (nl ++ (x ++ nl ++ join nl (z :: r)) ++ nl)).
      exists "", (join nl (z :: r) ++ nl); simpl; now rewrite !str_app_assoc.
    + change (infix (nl ++ x ++ nl) (nl ++ (y ++ nl ++ join nl (z :: r)) ++ nl)).
      rewrite str_app_assoc, str_app_assoc.
      apply infix_app_l, infix_app_l, IH, Hin.
Qed.

(** Every item of every skill category is listed as its own line
    ["- item"] in the chatbot context. *)
Theorem profileContext_lists_skill_items : forall profile skills projects c i,
  In c skills -> In i (items c) ->
  infix (nl ++ "- " ++ i ++ nl) (profileContext profile skills projects).
Proof.
  intros profile skills projects c i Hc Hi.
  apply infix_trans with (t := skill_block c).
  - unfold skill_block.
    apply infix_app_l, infix_app_l, infix_app_l.
    pose proof (join_line_infix ("- " ++ i) _ (in_map (fun s => "- " ++ s) _ _ Hi)) as H.
    rewrite str_app_assoc in H; exact H.
  - unfold profileContext; apply infix_app_l, infix_app_r.
    apply join_infix, in_map, Hc.
Qed.

Lemma profileContext_lists_skill_items_witness :
  infix (nl ++ "- " ++ "Astro" ++ nl)
    (profileContext (mkProfile "A" "T" "a@b.c" "gh" "li" "bio")
       [mkSkill "Frontend" ["React"; "Astro"]; mkSkill "Backend" ["Node.js"]] []).
Proof.
  apply (profileContext_lists_skill_items _ _ _ (mkSkill "Frontend" ["React"; "Astro"]));
    simpl; auto.
Defined.



